(** * Answer-key validators of cal_engine/assessment/models.py

    A shallow embedding of the three validators of the assessment app:

    - [validate_total_marks], the [post_save] receiver of [Question];
    - [NATSolution.clean], with its local helper [validate_decimal_precision];
    - [ChoiceSolution.clean].

    Django's [FloatField] holds a Python float, modelled as a binary64
    primitive float; [PositiveIntegerField] holds a non-negative integer,
    modelled as [N]; a nullable field is an [option]; a [CharField] is a
    [string], compared as the code compares it.  A raised [ValidationError] is
    the [Raise] outcome of a validator, a normal return is [Ok]. *)

From Stdlib Require Import ZArith NArith List String Ascii Bool Lia.
From Stdlib Require Import Floats.
Import ListNotations.

Set Warnings "-inexact-float".
Open Scope string_scope.

(** ** The interpreter's builtins the validators call *)

Module Py.

(** [c in s] for a one-character needle [c]. *)
Fixpoint contains (c : ascii) (s : string) : bool :=
  match s with
  | EmptyString => false
  | String a s' => Ascii.eqb a c || contains c s'
  end.

(** [s.split(sep)] for a one-character separator: the pieces between the
    occurrences of [sep], in order; the result always has at least one
    piece. *)
Fixpoint split (sep : ascii) (s : string) : list string :=
  match s with
  | EmptyString => [EmptyString]
  | String a s' =>
      if Ascii.eqb a sep then EmptyString :: split sep s'
      else match split sep s' with
           | [] => [String a EmptyString]
           | piece :: pieces => String a piece :: pieces
           end
  end.

(** [l[-1]].  Python raises IndexError on an empty list; the only caller
    indexes the result of [split], which is never empty (see
    [split_not_nil]). *)
Definition last_item (l : list string) : string := List.last l EmptyString.

(** [len(s)]. *)
Definition len (s : string) : N := N.of_nat (String.length s).

(** [x in l] for a list of strings. *)
Definition str_in_list (x : string) (l : list string) : bool :=
  existsb (String.eqb x) l.

(** [sum(xs)] over floats: the start value is the integer 0, which is
    0.0 once a float is added to it, and the items are added from left to
    right in binary64.  (From CPython 3.12 on, [sum] carries a compensation
    term; the two agree whenever the partial sums are exact, as they are for
    integral marks.) *)
Definition sum (xs : list float) : float :=
  fold_left PrimFloat.add xs 0%float.

(** [x == n] for a float [x] and a non-negative integer [n].  Python compares
    the two exactly, without rounding [n] to a float: a NaN or an infinity
    equals no integer, a negative float equals no [n], either zero equals 0,
    and a positive float [m * 2^e] equals [n] when the two numbers are the
    same. *)
Definition float_eq_int (x : float) (n : N) : bool :=
  match Prim2SF x with
  | SpecFloat.S754_zero _ => N.eqb n 0
  | SpecFloat.S754_finite false m e =>
      if (0 <=? e)%Z
      then Z.eqb (Z.pos m * 2 ^ e) (Z.of_N n)
      else Z.eqb (Z.pos m) (Z.of_N n * 2 ^ (- e))
  | SpecFloat.S754_finite true _ _ => false
  | SpecFloat.S754_infinity _ => false
  | SpecFloat.S754_nan => false
  end.

(** [x != n]. *)
Definition float_ne_int (x : float) (n : N) : bool := negb (float_eq_int x n).

End Py.

(** ** The raised error *)

(** [ValidationError] is raised at six places, each with its own message;
    a constructor stands for each message and carries the values the message
    interpolates.

    - [MarksMismatch total marks]: "Total marks assigned to choices ({total})
      must equal the question's total marks ({marks})."
    - [MissingPrecision]: "Decimal precision is required when value_type is
      'float'."
    - [PrecisionViolation field p]: "The '{field}' does not adhere to the
      decimal precision of {p}."
    - [MultipleCorrectChoices]: "For MCQ questions, only one option can be
      marked as correct." *)
Inductive ValidationError : Type :=
| MarksMismatch (total : float) (marks : N)
| MissingPrecision
| PrecisionViolation (field : string) (precision : N)
| MultipleCorrectChoices.

Inductive result : Type :=
| Ok
| Raise (e : ValidationError).

(** ** The models *)

Module Question.

(** The fields of [Question] the validators can see; [pk] is the primary
    key of the saved row. *)
Record t : Type := mk {
  pk : Z;
  text : string;
  type : string;
  marks : N;
  partial_marking : bool
}.


End Question.

Module ChoiceSolution.

(** [pk] is [None] for an instance that has not been saved yet. *)
Record t : Type := mk {
  pk : option Z;
  question : Question.t;
  format : string;
  value : string;
  marks : float;
  is_correct : bool
}.

(** The table of stored [ChoiceSolution] rows. *)
Definition table : Type := list t.

(** [q.choice_solutions.all()]: the stored rows whose foreign key is [q]. *)
Definition choice_solutions (q : Question.t) (db : table) : list t :=
  filter (fun c => Z.eqb (Question.pk (question c)) (Question.pk q)) db.

(** [x in l] on primary keys ([None] is the key of an unsaved instance). *)
Definition pk_in (x : option Z) (l : list (option Z)) : bool :=
  existsb (fun y =>
             match x, y with
             | Some a, Some b => Z.eqb a b
             | None, None => true
             | _, _ => false
             end) l.

(** [queryset.exists()]. *)
Definition queryset_exists (rows : list t) : bool :=
  match rows with
  | [] => false
  | _ :: _ => true
  end.

(** [self.question.choice_solutions.filter(is_correct=True)]. *)
Definition correct_options (self : t) (db : table) : list t :=
  filter is_correct (choice_solutions (question self) db).

Definition clean (self : t) (db : table) : result :=
  if String.eqb (Question.type (question self)) "MCQ" then
    if is_correct self
       && queryset_exists (correct_options self db)
       && negb (pk_in (pk self) (map pk (correct_options self db)))
    then Raise MultipleCorrectChoices
    else Ok
  else Ok.

End ChoiceSolution.

(** ** validate_total_marks *)

Definition validate_total_marks (instance : Question.t)
  (db : ChoiceSolution.table) : result :=
  if Py.str_in_list (Question.type instance) ["MCQ"; "MSQ"] then
    let total_marks_from_choices :=
      Py.sum (map ChoiceSolution.marks
                (ChoiceSolution.choice_solutions instance db)) in
    if Py.float_ne_int total_marks_from_choices (Question.marks instance)
    then Raise (MarksMismatch total_marks_from_choices (Question.marks instance))
    else Ok
  else Ok.

(** ** NATSolution *)

Module NATSolution.

(** The fields of [NATSolution] that [clean] reads. *)
Record t : Type := mk {
  value_type : string;
  value : float;
  tolerance_min : option float;
  tolerance_max : option float;
  decimal_precision : option N
}.

Section Clean.

(** [str(number)] on a float is the interpreter's shortest round-trip
    rendering; its algorithm is not part of this repository, so it is a
    parameter of [clean] and every result below holds for whatever text it
    returns. *)
Variable str : float -> string.

(** The text [validate_decimal_precision] measures. *)
Definition decimal_part (number : float) : string :=
  if Py.contains "." (str number)
  then Py.last_item (Py.split "." (str number))
  else "".

Definition validate_decimal_precision (number : float) (precision : N) : bool :=
  N.leb (Py.len (decimal_part number)) precision.

Definition clean (self : t) : result :=
  if String.eqb (value_type self) "float" then
    match decimal_precision self with
    | None => Raise MissingPrecision
    | Some precision =>
        if negb (validate_decimal_precision (value self) precision)
        then Raise (PrecisionViolation "value" precision)
        else
          if match tolerance_min self with
             | Some tmin => negb (validate_decimal_precision tmin precision)
             | None => false
             end
          then Raise (PrecisionViolation "tolerance_min" precision)
          else
            if match tolerance_max self with
               | Some tmax => negb (validate_decimal_precision tmax precision)
               | None => false
               end
            then Raise (PrecisionViolation "tolerance_max" precision)
            else Ok
    end
  else Ok.

End Clean.

End NATSolution.

(** ** The digit count the precision rule speaks of *)

Definition is_digit (c : ascii) : bool :=
  (48 <=? nat_of_ascii c)%nat && (nat_of_ascii c <=? 57)%nat.

(** The number of digits at the head of a text. *)
Fixpoint leading_digits (s : string) : nat :=
  match s with
  | EmptyString => 0%nat
  | String c s' => if is_digit c then S (leading_digits s') else 0%nat
  end.

(** The number of digits that follow the decimal point of a rendered number:
    the run of digits right after the first ".", and zero when the text has no
    point.  This follows the words of the precision rule, not the code; the
    code's count is [Py.len (NATSolution.decimal_part str number)]. *)
Fixpoint digits_after_point (s : string) : nat :=
  match s with
  | EmptyString => 0%nat
  | String c s' =>
      if Ascii.eqb c "." then leading_digits s' else digits_after_point s'
  end.

(** A text made of digits only. *)
Fixpoint all_digits (s : string) : bool :=
  match s with
  | EmptyString => true
  | String c s' => is_digit c && all_digits s'
  end.

(** ** Sample records *)

Module Sample.

Open Scope float_scope.

(** What [str] gives for a few floats, as the interpreter prints them; a float
    outside the table gets the empty text. *)
Definition str_table : list (float * string) :=
  [ (3.14, "3.14"); (3.145, "3.145"); (1e-07, "1e-07");
    (1.5e16, "1.5e+16"); (5.5, "5.5"); (1.25, "1.25") ].

Fixpoint lookup (x : float) (tbl : list (float * string)) : string :=
  match tbl with
  | [] => EmptyString
  | (y, s) :: tbl' => if PrimFloat.eqb x y then s else lookup x tbl'
  end.

Definition str (x : float) : string := lookup x str_table.

(** A single-select question worth 10 marks. *)
Definition mcq10 : Question.t := Question.mk 1 "Pick one" "MCQ" 10 false.

Definition choice (pk : Z) (q : Question.t) (marks : float) (is_correct : bool)
  : ChoiceSolution.t :=
  ChoiceSolution.mk (Some pk) q "text" "option" marks is_correct.

(** Its choices carry the marks 4 and 6, or 4 and 5. *)
Definition rows_4_6 : ChoiceSolution.table :=
  [choice 1 mcq10 4 true; choice 2 mcq10 6 false].
Definition rows_4_5 : ChoiceSolution.table :=
  [choice 1 mcq10 4 true; choice 2 mcq10 5 false].

(** Two stored choices of [mcq10], both flagged correct. *)
Definition rows_two_correct : ChoiceSolution.table :=
  [choice 1 mcq10 4 true; choice 2 mcq10 6 true].

(** A third choice of [mcq10], not flagged correct. *)
Definition wrong_choice : ChoiceSolution.t := choice 3 mcq10 0 false.


(** A multi-select question with partial marking, worth 5 marks, with choices
    worth 2 and 2, or 2, 3 and 0. *)
Definition msq5 : Question.t := Question.mk 2 "Pick some" "MSQ" 5 true.

(** A descriptive question. *)
Definition desc : Question.t := Question.mk 3 "Explain" "DESC" 5 false.

(** Numeric solutions. *)
Definition nat_3_14 : NATSolution.t :=
  NATSolution.mk "float" 3.14 None None (Some 2%N).
Definition nat_3_145 : NATSolution.t :=
  NATSolution.mk "float" 3.145 None None (Some 2%N).
Definition nat_exponent : NATSolution.t :=
  NATSolution.mk "float" 1.5e16 None None (Some 2%N).
Definition nat_no_precision : NATSolution.t :=
  NATSolution.mk "float" 3.14 None None None.
Definition nat_int : NATSolution.t :=
  NATSolution.mk "int" 3.14 (Some 5.5) (Some 1.25) None.
Definition nat_swapped_bounds : NATSolution.t :=
  NATSolution.mk "float" 3.14 (Some 5.5) (Some 1.25) (Some 2%N).
Definition nat_tiny : NATSolution.t :=
  NATSolution.mk "float" 1e-07 None None (Some 0%N).
Definition nat_all_bad : NATSolution.t :=
  NATSolution.mk "float" 3.145 (Some 3.145) (Some 3.145) (Some 2%N).

End Sample.

(** ** Field assignments and renderings *)

(** [self.decimal_precision = p], [self.tolerance_min = t] and
    [self.tolerance_max = t] on a [NATSolution]. *)
Definition with_decimal_precision (p : option N) (self : NATSolution.t)
  : NATSolution.t :=
  NATSolution.mk (NATSolution.value_type self) (NATSolution.value self)
    (NATSolution.tolerance_min self) (NATSolution.tolerance_max self) p.

Definition with_tolerance_min (t : option float) (self : NATSolution.t)
  : NATSolution.t :=
  NATSolution.mk (NATSolution.value_type self) (NATSolution.value self)
    t (NATSolution.tolerance_max self) (NATSolution.decimal_precision self).

Definition with_tolerance_max (t : option float) (self : NATSolution.t)
  : NATSolution.t :=
  NATSolution.mk (NATSolution.value_type self) (NATSolution.value self)
    (NATSolution.tolerance_min self) t (NATSolution.decimal_precision self).

Module Render.

(** [str(b)] on a bool. *)
Definition bool_str (b : bool) : string := if b then "True" else "False".

(** [ChoiceSolution.__str__]:
    f"{self.value} (Correct: {self.is_correct}, Marks: {self.marks})",
    with [str] the interpreter's rendering of a float. *)
Definition __str__ (str : float -> string) (self : ChoiceSolution.t) : string :=
  ChoiceSolution.value self ++ " (Correct: "
    ++ bool_str (ChoiceSolution.is_correct self)
    ++ ", Marks: " ++ str (ChoiceSolution.marks self) ++ ")".

End Render.

(** * Properties *)

(** ** The builtins *)

Lemma split_not_nil (sep : ascii) (s : string) : Py.split sep s <> [].
Proof.
  induction s as [|a s IH]; simpl.
  - discriminate.
  - destruct (Ascii.eqb a sep); [discriminate|].
    destruct (Py.split sep s); discriminate.
Qed.

Lemma split_no_sep (sep : ascii) (s : string) :
  Py.contains sep s = false -> Py.split sep s = [s].
Proof.
  induction s as [|a s IH]; simpl; intros H.
  - reflexivity.
  - apply orb_false_iff in H as [Ha Hs].
    rewrite Ha, (IH Hs). reflexivity.
Qed.

Lemma last_cons_split (sep : ascii) (x : string) (s : string) :
  List.last (x :: Py.split sep s) EmptyString
  = List.last (Py.split sep s) EmptyString.
Proof.
  pose proof (split_not_nil sep s) as Hne.
  destruct (Py.split sep s); [contradiction | reflexivity].
Qed.

Lemma split_app_length (sep : ascii) (a b : string) :
  (2 <= List.length (Py.split sep (a ++ String sep b)))%nat.
Proof.
  induction a as [|d a IH]; simpl.
  - rewrite Ascii.eqb_refl. simpl.
    pose proof (split_not_nil sep b).
    destruct (Py.split sep b); [contradiction | simpl; lia].
  - destruct (Ascii.eqb d sep); simpl; [lia|].
    destruct (Py.split sep (a ++ String sep b)); simpl in *; lia.
Qed.

(** The last piece of a text with a separator in it is the last piece of what
    follows the first separator. *)
Lemma last_split_app (sep : ascii) (a b : string) :
  Py.contains sep a = false ->
  Py.last_item (Py.split sep (a ++ String sep b))
  = Py.last_item (Py.split sep b).
Proof.
  unfold Py.last_item.
  induction a as [|c a IH]; simpl; intros H.
  - rewrite Ascii.eqb_refl. apply last_cons_split.
  - apply orb_false_iff in H as [Hc Ha].
    rewrite Hc. specialize (IH Ha).
    pose proof (split_app_length sep a b) as Hlen.
    destruct (Py.split sep (a ++ String sep b)) as [|p [|q qs]];
      simpl in Hlen; try lia.
    exact IH.
Qed.

Lemma split_length_contains (sep : ascii) (s : string) :
  Py.contains sep s = true -> (2 <= List.length (Py.split sep s))%nat.
Proof.
  induction s as [|c s IH]; simpl; [discriminate|].
  destruct (Ascii.eqb c sep); simpl.
  - intros _. pose proof (split_not_nil sep s).
    destruct (Py.split sep s); [contradiction | simpl; lia].
  - intros H. specialize (IH H).
    destruct (Py.split sep s); simpl in *; lia.
Qed.

(** The last piece of a split has no separator in it. *)
Lemma last_piece_no_sep (sep : ascii) (s : string) :
  Py.contains sep (Py.last_item (Py.split sep s)) = false.
Proof.
  unfold Py.last_item.
  induction s as [|c s IH]; cbn [Py.split]; [reflexivity|].
  destruct (Ascii.eqb c sep) eqn:Ec.
  - now rewrite last_cons_split.
  - pose proof (split_not_nil sep s) as Hne.
    destruct (Py.split sep s) as [|p [|q qs]]; [contradiction| |exact IH].
    cbn in *. now rewrite Ec, IH.
Qed.

(** A text with a separator in it ends with the separator followed by the
    last piece of its split. *)
Lemma last_piece_suffix (sep : ascii) (s : string) :
  Py.contains sep s = true ->
  exists a, s = a ++ String sep (Py.last_item (Py.split sep s)).
Proof.
  unfold Py.last_item.
  induction s as [|c s IH]; cbn [Py.split Py.contains]; [discriminate|].
  destruct (Ascii.eqb_spec c sep) as [->|Hc]; cbn [orb].
  - intros _. rewrite last_cons_split.
    destruct (Py.contains sep s) eqn:Hs.
    + destruct (IH eq_refl) as [a Ha].
      exists (String sep a). cbn [append]. now rewrite <- Ha.
    + rewrite (split_no_sep sep s Hs). now exists EmptyString.
  - intros Hs. destruct (IH Hs) as [a Ha].
    pose proof (split_length_contains sep s Hs) as Hlen.
    destruct (Py.split sep s) as [|p [|q qs]]; cbn in Hlen; try lia.
    exists (String c a). cbn [append]. f_equal. exact Ha.
Qed.

(** Whatever precedes it, a separator followed by a text free of separators
    makes that text the last piece. *)
Lemma last_split_after_last_sep (sep : ascii) (a b : string) :
  Py.contains sep b = false ->
  Py.last_item (Py.split sep (a ++ String sep b)) = b.
Proof.
  intros Hb. unfold Py.last_item.
  induction a as [|c a IH]; cbn [append Py.split].
  - rewrite Ascii.eqb_refl, (split_no_sep sep b Hb). reflexivity.
  - destruct (Ascii.eqb c sep).
    + now rewrite last_cons_split.
    + pose proof (split_app_length sep a b) as Hlen.
      destruct (Py.split sep (a ++ String sep b)) as [|p [|q qs]];
        cbn in Hlen; try lia.
      exact IH.
Qed.

Lemma contains_app (c : ascii) (a b : string) :
  Py.contains c (a ++ b) = Py.contains c a || Py.contains c b.
Proof.
  induction a as [|d a IH]; simpl; [reflexivity|].
  rewrite IH. apply orb_assoc.
Qed.

Lemma digit_not_point (c : ascii) : is_digit c = true -> Ascii.eqb c "." = false.
Proof.
  intros H. destruct (Ascii.eqb_spec c ".") as [->|]; [discriminate H | reflexivity].
Qed.

Lemma all_digits_no_point (s : string) :
  all_digits s = true -> Py.contains "." s = false.
Proof.
  induction s as [|c s IH]; simpl; [reflexivity|].
  intros H. apply andb_true_iff in H as [Hc Hs].
  rewrite (digit_not_point c Hc), (IH Hs). reflexivity.
Qed.

Lemma all_digits_leading (s : string) :
  all_digits s = true -> leading_digits s = String.length s.
Proof.
  induction s as [|c s IH]; simpl; [reflexivity|].
  intros H. apply andb_true_iff in H as [Hc Hs].
  rewrite Hc, (IH Hs). reflexivity.
Qed.

Lemma digits_after_point_app (a b : string) :
  Py.contains "." a = false ->
  digits_after_point (a ++ String "." b) = leading_digits b.
Proof.
  induction a as [|c a IH]; simpl; intros H; [reflexivity|].
  apply orb_false_iff in H as [Hc Ha].
  rewrite Hc. exact (IH Ha).
Qed.

(** On a text in positional notation, [whole.frac] with [frac] made of
    digits, the text the code measures is [frac], and its length is the number
    of digits after the point. *)
Lemma decimal_part_positional (str : float -> string) (number : float)
  (whole frac : string) :
  str number = whole ++ String "." frac ->
  Py.contains "." whole = false ->
  all_digits frac = true ->
  NATSolution.decimal_part str number = frac
  /\ Py.len (NATSolution.decimal_part str number)
     = N.of_nat (digits_after_point (str number)).
Proof.
  intros Hs Hw Hf.
  assert (Hpart : NATSolution.decimal_part str number = frac).
  { unfold NATSolution.decimal_part. rewrite Hs.
    rewrite contains_app. simpl Py.contains at 2.
    rewrite orb_true_r.
    rewrite (last_split_app "." whole frac Hw).
    rewrite (split_no_sep "." frac (all_digits_no_point frac Hf)).
    reflexivity. }
  split; [exact Hpart|].
  rewrite Hpart, Hs, (digits_after_point_app whole frac Hw).
  unfold Py.len. now rewrite (all_digits_leading frac Hf).
Qed.

(** ** validate_total_marks *)

Lemma str_in_list_mcq_msq (ty : string) :
  Py.str_in_list ty ["MCQ"; "MSQ"] = true <-> ty = "MCQ" \/ ty = "MSQ".
Proof.
  unfold Py.str_in_list. simpl. rewrite orb_false_r, orb_true_iff.
  now rewrite !String.eqb_eq.
Qed.

Lemma str_in_list_other (ty : string) :
  ty <> "MCQ" -> ty <> "MSQ" -> Py.str_in_list ty ["MCQ"; "MSQ"] = false.
Proof.
  intros H1 H2. destruct (Py.str_in_list ty ["MCQ"; "MSQ"]) eqn:E; [|reflexivity].
  apply str_in_list_mcq_msq in E. tauto.
Qed.






(** C6. For a question whose type is neither MCQ nor MSQ, in particular a
    descriptive (DESC) or numerical (NAT) one, both choice validators return
    normally whatever the stored choices are. *)
Theorem C6_other_types_always_pass (q : Question.t) (db : ChoiceSolution.table) :
  Question.type q <> "MCQ" -> Question.type q <> "MSQ" ->
  validate_total_marks q db = Ok
  /\ (forall self : ChoiceSolution.t,
         ChoiceSolution.question self = q -> ChoiceSolution.clean self db = Ok).
Proof.
  intros Hmcq Hmsq. split.
  - unfold validate_total_marks.
    now rewrite (str_in_list_other _ Hmcq Hmsq).
  - intros self Hq. unfold ChoiceSolution.clean. rewrite Hq.
    apply String.eqb_neq in Hmcq. now rewrite Hmcq.
Qed.

Lemma C6_other_types_always_pass_witness :
  validate_total_marks Sample.desc Sample.rows_4_5 = Ok
  /\ validate_total_marks
       (Question.mk 4 "Compute" "NAT" 5 false) Sample.rows_two_correct = Ok.
Proof.
  split.
  - apply (C6_other_types_always_pass Sample.desc Sample.rows_4_5);
      discriminate.
  - apply (C6_other_types_always_pass
             (Question.mk 4 "Compute" "NAT" 5 false) Sample.rows_two_correct);
      discriminate.
Defined.

(** ** ChoiceSolution.clean *)

(** When [clean] raises, and what. *)
Lemma clean_raises_iff (self : ChoiceSolution.t) (db : ChoiceSolution.table) :
  ChoiceSolution.clean self db = Raise MultipleCorrectChoices
  <-> Question.type (ChoiceSolution.question self) = "MCQ"
      /\ ChoiceSolution.is_correct self = true
      /\ ChoiceSolution.correct_options self db <> []
      /\ ChoiceSolution.pk_in (ChoiceSolution.pk self)
           (map ChoiceSolution.pk (ChoiceSolution.correct_options self db))
         = false.
Proof.
  unfold ChoiceSolution.clean.
  set (rows := ChoiceSolution.correct_options self db).
  set (seen := ChoiceSolution.pk_in (ChoiceSolution.pk self)
                 (map ChoiceSolution.pk rows)).
  destruct (String.eqb_spec
              (Question.type (ChoiceSolution.question self)) "MCQ") as [Hty|Hty].
  - destruct (ChoiceSolution.is_correct self), rows as [|row rows'], seen;
      simpl; split; try discriminate; try reflexivity.
    + intros (_ & _ & H & _). now elim H.
    + intros (_ & _ & H & _). now elim H.
    + intros (_ & _ & _ & H). discriminate H.
    + intros _. split; [exact Hty|]. split; [reflexivity|].
      split; [discriminate | reflexivity].
    + intros (_ & H & _). discriminate H.
    + intros (_ & H & _). discriminate H.
    + intros (_ & H & _). discriminate H.
    + intros (_ & H & _). discriminate H.
  - split; [discriminate | intros (H & _); contradiction].
Qed.

Lemma clean_ok_or_multiple (self : ChoiceSolution.t) (db : ChoiceSolution.table) :
  ChoiceSolution.clean self db = Ok
  \/ ChoiceSolution.clean self db = Raise MultipleCorrectChoices.
Proof.
  unfold ChoiceSolution.clean.
  destruct (String.eqb _ _); [|now left].
  destruct (_ && _); [now right | now left].
Qed.

(** A new correct choice beside a stored correct one is refused: the part of
    the single-correct rule the check does enforce. *)
Lemma clean_refuses_second_correct
  (self : ChoiceSolution.t) (db : ChoiceSolution.table) :
  Question.type (ChoiceSolution.question self) = "MCQ" ->
  ChoiceSolution.is_correct self = true ->
  ChoiceSolution.correct_options self db <> [] ->
  ChoiceSolution.pk_in (ChoiceSolution.pk self)
    (map ChoiceSolution.pk (ChoiceSolution.correct_options self db)) = false ->
  ChoiceSolution.clean self db = Raise MultipleCorrectChoices.
Proof. intros. apply clean_raises_iff. tauto. Qed.

(** A choice saved again while it is the only stored correct one passes. *)
Lemma clean_resave_sole_correct
  (self row : ChoiceSolution.t) (db : ChoiceSolution.table) :
  ChoiceSolution.correct_options self db = [row] ->
  ChoiceSolution.pk row = ChoiceSolution.pk self ->
  ChoiceSolution.clean self db = Ok.
Proof.
  intros Hrows Hpk.
  destruct (clean_ok_or_multiple self db) as [H|H]; [exact H|].
  apply clean_raises_iff in H as (_ & _ & _ & Hin).
  rewrite Hrows in Hin. simpl in Hin. rewrite Hpk in Hin.
  destruct (ChoiceSolution.pk self); simpl in Hin;
    [rewrite Z.eqb_refl in Hin|]; discriminate.
Qed.

(** C2, at the input where the code departs from it.  The question is of
    type MCQ; the stored rows 1 and 2 are both flagged correct; row 1 is
    committed again, flagged correct.  Row 2 is a distinct sibling already
    flagged correct, yet [clean] returns normally: the key of the committed
    row is found among the keys of the correct rows, which silences the check
    for every other correct row as well. *)
Theorem C2_resave_beside_other_correct_passes :
  let self := Sample.choice 1 Sample.mcq10 4%float true in
  let sibling := Sample.choice 2 Sample.mcq10 6%float true in
  Question.type (ChoiceSolution.question self) = "MCQ"
  /\ ChoiceSolution.is_correct self = true
  /\ In sibling (ChoiceSolution.choice_solutions Sample.mcq10
                   Sample.rows_two_correct)
  /\ ChoiceSolution.is_correct sibling = true
  /\ ChoiceSolution.pk sibling <> ChoiceSolution.pk self
  /\ ChoiceSolution.clean self Sample.rows_two_correct = Ok.
Proof.
  cbv zeta. repeat split.
  - vm_compute. right. left. reflexivity.
  - discriminate.
Qed.

(** C9. For a question of type MCQ, committing a choice that is not flagged
    correct always passes, however many stored siblings are flagged correct;
    and whenever [clean] raises, the committed choice is flagged correct. *)
Theorem C9_incorrect_choice_always_passes
  (self : ChoiceSolution.t) (db : ChoiceSolution.table) :
  Question.type (ChoiceSolution.question self) = "MCQ" ->
  (ChoiceSolution.is_correct self = false -> ChoiceSolution.clean self db = Ok)
  /\ (forall e, ChoiceSolution.clean self db = Raise e ->
                ChoiceSolution.is_correct self = true).
Proof.
  intros Hty. unfold ChoiceSolution.clean. rewrite Hty. simpl.
  destruct (ChoiceSolution.is_correct self); simpl.
  - split; [discriminate | reflexivity].
  - split; [reflexivity | discriminate].
Qed.

(** A choice not flagged correct is committed beside two stored choices that
    are both flagged correct, and passes. *)
Lemma C9_incorrect_choice_always_passes_witness :
  List.length (ChoiceSolution.correct_options Sample.wrong_choice
                 Sample.rows_two_correct) = 2%nat
  /\ ChoiceSolution.clean Sample.wrong_choice Sample.rows_two_correct = Ok.
Proof.
  split.
  - vm_compute. reflexivity.
  - apply (proj1 (C9_incorrect_choice_always_passes Sample.wrong_choice
                    Sample.rows_two_correct eq_refl)).
    reflexivity.
Defined.

(** ** NATSolution.clean *)

Section NATProperties.

Variable str : float -> string.

Local Abbreviation validate := (NATSolution.validate_decimal_precision str).
Local Abbreviation clean := (NATSolution.clean str).

(** Splits [clean] into its branches. *)
Ltac clean_cases self :=
  unfold NATSolution.clean;
  destruct (String.eqb_spec (NATSolution.value_type self) "float");
  destruct (NATSolution.decimal_precision self);
  destruct (NATSolution.tolerance_min self);
  destruct (NATSolution.tolerance_max self);
  repeat match goal with
    | |- context [NATSolution.validate_decimal_precision str ?x ?p] =>
        let E := fresh "E" in
        destruct (NATSolution.validate_decimal_precision str x p) eqn:E
    end;
  simpl.

(** A solution whose value type is not 'float' is accepted as it is. *)
Lemma clean_not_float (self : NATSolution.t) :
  NATSolution.value_type self <> "float" -> clean self = Ok.
Proof.
  intros H. unfold NATSolution.clean.
  apply String.eqb_neq in H. now rewrite H.
Qed.

(** On positional notation the check compares the number of digits after the
    point with the declared precision. *)
Lemma validate_positional (number : float) (precision : N) (whole frac : string) :
  str number = whole ++ String "." frac ->
  Py.contains "." whole = false ->
  all_digits frac = true ->
  validate number precision
  = N.leb (N.of_nat (digits_after_point (str number))) precision.
Proof.
  intros Hs Hw Hf. unfold NATSolution.validate_decimal_precision.
  now destruct (decimal_part_positional str number whole frac Hs Hw Hf) as [_ ->].
Qed.

(** C4, at the input where the code departs from it.  The value 1.5e16 is
    printed "1.5e+16": one digit follows the decimal point, within the
    declared precision 2.  [clean] measures the whole text after the point,
    "5e+16", five characters, and raises the precision error for 'value'. *)
Theorem C4_exponent_text_refused :
  str 1.5e16%float = "1.5e+16" ->
  digits_after_point (str (NATSolution.value Sample.nat_exponent)) = 1%nat
  /\ NATSolution.decimal_precision Sample.nat_exponent = Some 2%N
  /\ NATSolution.decimal_part str (NATSolution.value Sample.nat_exponent)
     = "5e+16"
  /\ clean Sample.nat_exponent = Raise (PrecisionViolation "value" 2).
Proof.
  intros Hs.
  assert (Hpart : NATSolution.decimal_part str
                    (NATSolution.value Sample.nat_exponent) = "5e+16").
  { unfold NATSolution.decimal_part. simpl NATSolution.value.
    rewrite Hs. reflexivity. }
  repeat split.
  - simpl NATSolution.value. rewrite Hs. reflexivity.
  - exact Hpart.
  - unfold NATSolution.clean, NATSolution.validate_decimal_precision.
    simpl NATSolution.value_type. simpl NATSolution.decimal_precision.
    rewrite Hpart. reflexivity.
Qed.

(** C5. [clean] raises the missing-precision error exactly when the value
    type is 'float' and no decimal precision is declared; a solution of value
    type 'int' is accepted whatever its value, bounds and precision are. *)
Theorem C5_missing_precision_iff (self : NATSolution.t) :
  (clean self = Raise MissingPrecision
   <-> NATSolution.value_type self = "float"
       /\ NATSolution.decimal_precision self = None)
  /\ (NATSolution.value_type self = "int" -> clean self = Ok).
Proof.
  split.
  - clean_cases self; split; intros H; try discriminate H;
      try (destruct H; congruence); try (split; congruence).
  - intros H. apply clean_not_float. rewrite H. discriminate.
Qed.

(** C7. With both bounds present and the lower bound above the upper one,
    [clean] still returns normally as soon as the value type is not 'float',
    or a precision is declared and each of the three fields passes the
    precision check on its own. *)
Theorem C7_bounds_not_compared (self : NATSolution.t) (tmin tmax : float) :
  NATSolution.tolerance_min self = Some tmin ->
  NATSolution.tolerance_max self = Some tmax ->
  PrimFloat.ltb tmax tmin = true ->
  NATSolution.value_type self <> "float"
  \/ (exists precision,
         NATSolution.decimal_precision self = Some precision
         /\ validate (NATSolution.value self) precision = true
         /\ validate tmin precision = true
         /\ validate tmax precision = true) ->
  clean self = Ok.
Proof.
  intros Hmin Hmax _ [Hint | (p & Hp & Hv & Hlo & Hhi)].
  - now apply clean_not_float.
  - unfold NATSolution.clean. rewrite Hp, Hmin, Hmax, Hv, Hlo, Hhi.
    now destruct (String.eqb _ _).
Qed.

(** C8. [clean] reports one error, the first in a fixed order: for a 'float'
    solution, a missing precision before anything else; then the value; then
    the lower bound, if present; then the upper bound, if present.  What the
    later fields hold does not change the report. *)
Theorem C8_first_violation_reported (self : NATSolution.t) :
  NATSolution.value_type self = "float" ->
  (NATSolution.decimal_precision self = None ->
   clean self = Raise MissingPrecision)
  /\ (forall precision,
         NATSolution.decimal_precision self = Some precision ->
         (validate (NATSolution.value self) precision = false ->
          clean self = Raise (PrecisionViolation "value" precision))
         /\ (forall tmin,
                validate (NATSolution.value self) precision = true ->
                NATSolution.tolerance_min self = Some tmin ->
                validate tmin precision = false ->
                clean self = Raise (PrecisionViolation "tolerance_min" precision))
         /\ (forall tmax,
                validate (NATSolution.value self) precision = true ->
                (forall tmin, NATSolution.tolerance_min self = Some tmin ->
                              validate tmin precision = true) ->
                NATSolution.tolerance_max self = Some tmax ->
                validate tmax precision = false ->
                clean self = Raise (PrecisionViolation "tolerance_max" precision))).
Proof.
  intros Hty. unfold NATSolution.clean. rewrite Hty. simpl. split.
  - now intros ->.
  - intros p ->. split; [|split].
    + now intros ->.
    + intros tmin -> -> ->. reflexivity.
    + intros tmax -> Hlo -> ->. simpl.
      destruct (NATSolution.tolerance_min self) as [tmin|]; [|reflexivity].
      now rewrite (Hlo tmin eq_refl).
Qed.

(** C10. The count the precision check uses is the length of the text that
    follows the "." when the number's text is split on ".": for a text
    [before ++ "." ++ after] with no "." in [after], the measured text is
    [after] and the check compares its length with the precision.  When the
    text has no "." in it the measured text is empty, so the number passes
    the check for every precision, zero included, and [clean] never blames a
    field whose text has no ".". *)
Theorem C10_no_point_always_passes (number : float) :
  (forall before after precision,
      str number = before ++ String "." after ->
      Py.contains "." after = false ->
      NATSolution.decimal_part str number = after
      /\ validate number precision
         = N.leb (N.of_nat (String.length after)) precision)
  /\ (Py.contains "." (str number) = false ->
      NATSolution.decimal_part str number = ""
      /\ (forall precision, validate number precision = true)
      /\ (forall self precision,
             NATSolution.value self = number ->
             clean self <> Raise (PrecisionViolation "value" precision))
      /\ (forall self precision,
             NATSolution.tolerance_min self = Some number ->
             clean self <> Raise (PrecisionViolation "tolerance_min" precision))
      /\ (forall self precision,
             NATSolution.tolerance_max self = Some number ->
             clean self <> Raise (PrecisionViolation "tolerance_max" precision))).
Proof.
  split.
  { intros before after precision Hs Hafter.
    assert (Hpart : NATSolution.decimal_part str number = after).
    { unfold NATSolution.decimal_part. rewrite Hs, contains_app.
      simpl Py.contains at 2. rewrite orb_true_r.
      apply last_split_after_last_sep. exact Hafter. }
    split; [exact Hpart|].
    unfold NATSolution.validate_decimal_precision. now rewrite Hpart. }
  intros Hno.
  assert (Hpart : NATSolution.decimal_part str number = "").
  { unfold NATSolution.decimal_part. now rewrite Hno. }
  assert (Hok : forall precision, validate number precision = true).
  { intros p. unfold NATSolution.validate_decimal_precision.
    rewrite Hpart. apply N.leb_le. apply N.le_0_l. }
  split; [exact Hpart|]. split; [exact Hok|].
  split; [|split]; intros self p Hfield; unfold NATSolution.clean;
    rewrite Hfield;
    destruct (String.eqb _ _); try discriminate;
    destruct (NATSolution.decimal_precision self) as [q|]; try discriminate.
  - rewrite Hok. simpl.
    destruct (NATSolution.tolerance_min self) as [lo|];
      [destruct (validate lo q)|]; simpl; try discriminate;
      destruct (NATSolution.tolerance_max self) as [hi|];
      try destruct (validate hi q); simpl; discriminate.
  - rewrite Hok. simpl.
    destruct (validate (NATSolution.value self) q); simpl; try discriminate.
    destruct (NATSolution.tolerance_max self) as [hi|];
      try destruct (validate hi q); simpl; discriminate.
  - rewrite Hok. simpl.
    destruct (validate (NATSolution.value self) q); simpl; try discriminate.
    destruct (NATSolution.tolerance_min self) as [lo|];
      try destruct (validate lo q); simpl; discriminate.
Qed.

End NATProperties.

(** The printed form of 1.5e16 is taken from the table of [Sample.str]. *)
Lemma C4_exponent_text_refused_witness :
  digits_after_point (Sample.str 1.5e16%float) = 1%nat
  /\ NATSolution.clean Sample.str Sample.nat_exponent
     = Raise (PrecisionViolation "value" 2).
Proof.
  pose proof (C4_exponent_text_refused Sample.str eq_refl)
    as (Hdigits & _ & _ & Hclean).
  split; [exact Hdigits | exact Hclean].
Defined.

Lemma C5_missing_precision_iff_witness :
  NATSolution.clean Sample.str Sample.nat_no_precision = Raise MissingPrecision
  /\ NATSolution.clean Sample.str Sample.nat_int = Ok.
Proof.
  split.
  - apply (proj1 (C5_missing_precision_iff Sample.str Sample.nat_no_precision)).
    split; reflexivity.
  - apply (proj2 (C5_missing_precision_iff Sample.str Sample.nat_int)).
    reflexivity.
Defined.

(** Bounds 5.5 and 1.25, in the wrong order, around the value 3.14. *)
Lemma C7_bounds_not_compared_witness :
  PrimFloat.ltb 1.25%float 5.5%float = true
  /\ NATSolution.clean Sample.str Sample.nat_swapped_bounds = Ok.
Proof.
  split; [reflexivity|].
  apply (C7_bounds_not_compared Sample.str Sample.nat_swapped_bounds
           5.5%float 1.25%float eq_refl eq_refl eq_refl).
  right. exists 2%N. repeat split; vm_compute; reflexivity.
Defined.

(** All three fields break the precision; the value is the one reported. *)
Lemma C8_first_violation_reported_witness :
  NATSolution.clean Sample.str Sample.nat_all_bad
  = Raise (PrecisionViolation "value" 2).
Proof.
  apply (proj1 (proj2 (C8_first_violation_reported Sample.str
                         Sample.nat_all_bad eq_refl) 2%N eq_refl)).
  vm_compute. reflexivity.
Defined.

(** 1e-07 is printed "1e-07" and passes with precision 0; 3.145 is printed
    "3.145", the measured text is "145", and it fails with precision 2 and
    passes with precision 3. *)
Lemma C10_no_point_always_passes_witness :
  Sample.str 1e-07%float = "1e-07"
  /\ NATSolution.validate_decimal_precision Sample.str 1e-07%float 0 = true
  /\ NATSolution.decimal_part Sample.str 3.145%float = "145"
  /\ NATSolution.validate_decimal_precision Sample.str 3.145%float 2 = false
  /\ NATSolution.validate_decimal_precision Sample.str 3.145%float 3 = true.
Proof.
  split; [reflexivity|]. split; [|split; [|split]].
  - apply (proj1 (proj2 (proj2 (C10_no_point_always_passes Sample.str
                                  1e-07%float) eq_refl))).
  - apply (proj1 (proj1 (C10_no_point_always_passes Sample.str 3.145%float)
                    "3" "145" 2%N eq_refl eq_refl)).
  - rewrite (proj2 (proj1 (C10_no_point_always_passes Sample.str 3.145%float)
                      "3" "145" 2%N eq_refl eq_refl)).
    reflexivity.
  - rewrite (proj2 (proj1 (C10_no_point_always_passes Sample.str 3.145%float)
                      "3" "145" 3%N eq_refl eq_refl)).
    reflexivity.
Defined.

(** The two cases of the precision rule on positional notation: with precision
    2, the value 3.14 passes; 3.145, with three digits after the point, is
    refused and 'value' is blamed. *)
Example precision_3_14_passes :
  NATSolution.clean Sample.str Sample.nat_3_14 = Ok.
Proof. vm_compute. reflexivity. Qed.

Example precision_3_145_refused :
  digits_after_point (Sample.str 3.145%float) = 3%nat
  /\ NATSolution.clean Sample.str Sample.nat_3_145
     = Raise (PrecisionViolation "value" 2).
Proof. split; vm_compute; reflexivity. Qed.

(** * Further properties of the validators *)

(** ** The text the precision check measures *)

Section NATFurther.

Variable str : float -> string.

Local Abbreviation validate := (NATSolution.validate_decimal_precision str).
Local Abbreviation clean := (NATSolution.clean str).

(** X1. When the text of a number has a "." in it, the text that
    [validate_decimal_precision] measures is what follows the last ".": the
    number's text ends with "." and the measured text, and the measured text
    has no "." in it. *)
Theorem X1_decimal_part_follows_last_point (number : float) :
  Py.contains "." (str number) = true ->
  (exists before,
      str number = before ++ String "." (NATSolution.decimal_part str number))
  /\ Py.contains "." (NATSolution.decimal_part str number) = false.
Proof.
  intros H. unfold NATSolution.decimal_part. rewrite H. split.
  - exact (last_piece_suffix "." (str number) H).
  - apply last_piece_no_sep.
Qed.

(** X2. If the text of a number is [before ++ "." ++ after] with no "." in
    [after], the number passes the precision check exactly when [after] has at
    most [precision] characters, whatever [before] is (sign, whole part,
    further points). *)
Theorem X2_validate_counts_text_after_last_point
  (number : float) (precision : N) (before after : string) :
  str number = before ++ String "." after ->
  Py.contains "." after = false ->
  NATSolution.decimal_part str number = after
  /\ validate number precision
     = N.leb (N.of_nat (String.length after)) precision.
Proof.
  intros Hs Hafter.
  assert (Hpart : NATSolution.decimal_part str number = after).
  { unfold NATSolution.decimal_part. rewrite Hs, contains_app.
    simpl Py.contains at 2. rewrite orb_true_r.
    apply last_split_after_last_sep. exact Hafter. }
  split; [exact Hpart|].
  unfold NATSolution.validate_decimal_precision. now rewrite Hpart.
Qed.

Lemma validate_mono (number : float) (p p' : N) :
  (p <= p')%N -> validate number p = true -> validate number p' = true.
Proof.
  unfold NATSolution.validate_decimal_precision. intros Hle H.
  apply N.leb_le in H. apply N.leb_le. lia.
Qed.

(** When [clean] returns normally. *)
Lemma clean_ok_iff (self : NATSolution.t) :
  clean self = Ok
  <-> NATSolution.value_type self <> "float"
      \/ (exists precision,
             NATSolution.decimal_precision self = Some precision
             /\ validate (NATSolution.value self) precision = true
             /\ (forall t, NATSolution.tolerance_min self = Some t ->
                           validate t precision = true)
             /\ (forall t, NATSolution.tolerance_max self = Some t ->
                           validate t precision = true)).
Proof.
  unfold NATSolution.clean.
  destruct (String.eqb_spec (NATSolution.value_type self) "float") as [Hty|Hty].
  2:{ split; [now left | reflexivity]. }
  destruct (NATSolution.decimal_precision self) as [p|].
  2:{ split; [discriminate|].
      intros [H | (q & Hq & _)]; [contradiction | discriminate]. }
  destruct (validate (NATSolution.value self) p) eqn:Ev; simpl.
  2:{ split; [discriminate|].
      intros [H | (q & Hq & Hv & _)]; [contradiction|].
      injection Hq as <-. congruence. }
  destruct (NATSolution.tolerance_min self) as [lo|].
  - destruct (validate lo p) eqn:Elo; simpl.
    2:{ split; [discriminate|].
        intros [H | (q & Hq & _ & Hlo & _)]; [contradiction|].
        injection Hq as <-. specialize (Hlo lo eq_refl). congruence. }
    destruct (NATSolution.tolerance_max self) as [hi|].
    + destruct (validate hi p) eqn:Ehi; simpl.
      * split; [intros _; right; exists p | reflexivity].
        repeat split; try assumption; intros t [= <-]; assumption.
      * split; [discriminate|].
        intros [H | (q & Hq & _ & _ & Hhi)]; [contradiction|].
        injection Hq as <-. specialize (Hhi hi eq_refl). congruence.
    + simpl. split; [intros _; right; exists p | reflexivity].
      repeat split; try assumption; try discriminate.
      intros t [= <-]; assumption.
  - simpl. destruct (NATSolution.tolerance_max self) as [hi|].
    + destruct (validate hi p) eqn:Ehi; simpl.
      * split; [intros _; right; exists p | reflexivity].
        repeat split; try assumption; try discriminate.
        intros t [= <-]; assumption.
      * split; [discriminate|].
        intros [H | (q & Hq & _ & _ & Hhi)]; [contradiction|].
        injection Hq as <-. specialize (Hhi hi eq_refl). congruence.
    + simpl. split; [intros _; right; exists p | reflexivity].
      repeat split; try assumption; discriminate.
Qed.

(** X3. Declaring a larger precision never turns an accepted solution into a
    refused one: if [clean] returns normally with precision [p], it returns
    normally with every precision [p'] at least [p]. *)
Theorem X3_larger_precision_still_accepted (self : NATSolution.t) (p p' : N) :
  (p <= p')%N ->
  clean (with_decimal_precision (Some p) self) = Ok ->
  clean (with_decimal_precision (Some p') self) = Ok.
Proof.
  intros Hle H. apply clean_ok_iff in H. apply clean_ok_iff.
  destruct H as [Hty | (q & Hq & Hv & Hlo & Hhi)]; [now left|].
  right. exists p'. cbn in *. injection Hq as <-.
  repeat split.
  - exact (validate_mono _ _ _ Hle Hv).
  - intros t Ht. exact (validate_mono _ _ _ Hle (Hlo t Ht)).
  - intros t Ht. exact (validate_mono _ _ _ Hle (Hhi t Ht)).
Qed.

(** X4. Every error [clean] raises is justified by the record: the value type
    is 'float'; a missing-precision error means no precision is declared; a
    precision error carries the declared precision and names 'value',
    'tolerance_min' or 'tolerance_max', and the named field is present and
    fails the precision check.  [clean] raises no other error. *)
Theorem X4_clean_error_is_justified (self : NATSolution.t) (e : ValidationError) :
  clean self = Raise e ->
  NATSolution.value_type self = "float"
  /\ ((e = MissingPrecision /\ NATSolution.decimal_precision self = None)
      \/ exists p,
          NATSolution.decimal_precision self = Some p
          /\ ((e = PrecisionViolation "value" p
               /\ validate (NATSolution.value self) p = false)
              \/ (exists t,
                     e = PrecisionViolation "tolerance_min" p
                     /\ NATSolution.tolerance_min self = Some t
                     /\ validate t p = false)
              \/ (exists t,
                     e = PrecisionViolation "tolerance_max" p
                     /\ NATSolution.tolerance_max self = Some t
                     /\ validate t p = false))).
Proof.
  unfold NATSolution.clean.
  destruct (String.eqb_spec (NATSolution.value_type self) "float") as [Hty|Hty];
    [|discriminate].
  intros H. split; [exact Hty|].
  destruct (NATSolution.decimal_precision self) as [p|].
  2:{ left. split; [congruence | reflexivity]. }
  right. exists p. split; [reflexivity|].
  destruct (validate (NATSolution.value self) p) eqn:Ev; cbn in H.
  2:{ left. split; [congruence | reflexivity]. }
  right.
  destruct (NATSolution.tolerance_min self) as [lo|].
  - destruct (validate lo p) eqn:Elo; cbn in H.
    2:{ left. exists lo. repeat split; congruence. }
    right. destruct (NATSolution.tolerance_max self) as [hi|]; [|discriminate].
    destruct (validate hi p) eqn:Ehi; cbn in H; [discriminate|].
    exists hi. repeat split; congruence.
  - cbn in H. right.
    destruct (NATSolution.tolerance_max self) as [hi|]; [|discriminate].
    destruct (validate hi p) eqn:Ehi; cbn in H; [discriminate|].
    exists hi. repeat split; congruence.
Qed.

(** X5. [clean] returns normally exactly when the value type is not 'float',
    or a precision is declared and the value and each bound that is present
    pass the precision check.  So an accepted 'float' solution always has a
    declared precision that every present field respects. *)
Theorem X5_clean_accepts_iff (self : NATSolution.t) :
  clean self = Ok
  <-> NATSolution.value_type self <> "float"
      \/ (exists precision,
             NATSolution.decimal_precision self = Some precision
             /\ validate (NATSolution.value self) precision = true
             /\ (forall t, NATSolution.tolerance_min self = Some t ->
                           validate t precision = true)
             /\ (forall t, NATSolution.tolerance_max self = Some t ->
                           validate t precision = true)).
Proof. exact (clean_ok_iff self). Qed.

(** X6. Clearing a tolerance bound never turns an accepted solution into a
    refused one. *)
Theorem X6_clearing_a_bound_still_accepted (self : NATSolution.t) :
  clean self = Ok ->
  clean (with_tolerance_min None self) = Ok
  /\ clean (with_tolerance_max None self) = Ok.
Proof.
  intros H. apply clean_ok_iff in H.
  split; apply clean_ok_iff;
    (destruct H as [Hty | (q & Hq & Hv & Hlo & Hhi)]; [now left|]);
    right; exists q; cbn; repeat split; try assumption; discriminate.
Qed.

End NATFurther.

Lemma X1_decimal_part_follows_last_point_witness :
  NATSolution.decimal_part Sample.str 3.145%float = "145"
  /\ Py.contains "." (NATSolution.decimal_part Sample.str 3.145%float) = false.
Proof.
  split; [reflexivity|].
  apply (proj2 (X1_decimal_part_follows_last_point Sample.str 3.145%float
                  eq_refl)).
Defined.

Lemma X2_validate_counts_text_after_last_point_witness :
  NATSolution.validate_decimal_precision Sample.str 1.5e16%float 4 = false
  /\ NATSolution.validate_decimal_precision Sample.str 1.5e16%float 5 = true.
Proof.
  split.
  - rewrite (proj2 (X2_validate_counts_text_after_last_point Sample.str
                      1.5e16%float 4 "1" "5e+16" eq_refl eq_refl)).
    reflexivity.
  - rewrite (proj2 (X2_validate_counts_text_after_last_point Sample.str
                      1.5e16%float 5 "1" "5e+16" eq_refl eq_refl)).
    reflexivity.
Defined.

Lemma X3_larger_precision_still_accepted_witness :
  NATSolution.clean Sample.str
    (with_decimal_precision (Some 7%N) Sample.nat_swapped_bounds) = Ok.
Proof.
  apply (X3_larger_precision_still_accepted Sample.str
           Sample.nat_swapped_bounds 2 7).
  - vm_compute. discriminate.
  - vm_compute. reflexivity.
Defined.

Lemma X4_clean_error_is_justified_witness :
  NATSolution.value_type Sample.nat_all_bad = "float".
Proof.
  apply (proj1 (X4_clean_error_is_justified Sample.str Sample.nat_all_bad
                  (PrecisionViolation "value" 2) eq_refl)).
Defined.

Lemma X5_clean_accepts_iff_witness :
  NATSolution.clean Sample.str Sample.nat_swapped_bounds = Ok.
Proof.
  apply (proj2 (X5_clean_accepts_iff Sample.str Sample.nat_swapped_bounds)).
  right. exists 2%N. repeat split.
  - intros t [= <-]. reflexivity.
  - intros t [= <-]. reflexivity.
Defined.

Lemma X6_clearing_a_bound_still_accepted_witness :
  NATSolution.clean Sample.str
    (with_tolerance_min None Sample.nat_swapped_bounds) = Ok
  /\ NATSolution.clean Sample.str
       (with_tolerance_max None Sample.nat_swapped_bounds) = Ok.
Proof.
  apply (X6_clearing_a_bound_still_accepted Sample.str
           Sample.nat_swapped_bounds).
  vm_compute. reflexivity.
Defined.

(** ** The stored rows the choice validators read *)

Lemma choice_solutions_skip (q : Question.t) (row : ChoiceSolution.t)
  (db1 db2 : ChoiceSolution.table) :
  Question.pk (ChoiceSolution.question row) <> Question.pk q ->
  ChoiceSolution.choice_solutions q (db1 ++ row :: db2)%list
  = ChoiceSolution.choice_solutions q (db1 ++ db2)%list.
Proof.
  intros Hpk. unfold ChoiceSolution.choice_solutions.
  rewrite !filter_app. cbn [filter].
  apply Z.eqb_neq in Hpk. now rewrite Hpk.
Qed.

Lemma correct_options_skip (self row : ChoiceSolution.t)
  (db1 db2 : ChoiceSolution.table) :
  Question.pk (ChoiceSolution.question row)
  <> Question.pk (ChoiceSolution.question self)
  \/ ChoiceSolution.is_correct row = false ->
  ChoiceSolution.correct_options self (db1 ++ row :: db2)%list
  = ChoiceSolution.correct_options self (db1 ++ db2)%list.
Proof.
  intros H. unfold ChoiceSolution.correct_options, ChoiceSolution.choice_solutions.
  rewrite !filter_app. cbn [filter].
  destruct (Z.eqb_spec (Question.pk (ChoiceSolution.question row))
              (Question.pk (ChoiceSolution.question self))) as [Heq|Hne];
    [|reflexivity].
  destruct H as [H|H]; [contradiction|].
  cbn [filter]. now rewrite H.
Qed.

Lemma pk_in_In (x : option Z) (l : list (option Z)) :
  ChoiceSolution.pk_in x l = true <-> In x l.
Proof.
  unfold ChoiceSolution.pk_in. rewrite existsb_exists. split.
  - intros (y & Hy & Heq).
    destruct x as [a|], y as [b|]; try discriminate.
    + apply Z.eqb_eq in Heq. now subst.
    + exact Hy.
  - intros Hin. exists x. split; [exact Hin|].
    destruct x; [apply Z.eqb_refl | reflexivity].
Qed.

Lemma correct_options_In (self row : ChoiceSolution.t) (db : ChoiceSolution.table) :
  In row (ChoiceSolution.correct_options self db)
  <-> In row db
      /\ Question.pk (ChoiceSolution.question row)
         = Question.pk (ChoiceSolution.question self)
      /\ ChoiceSolution.is_correct row = true.
Proof.
  unfold ChoiceSolution.correct_options, ChoiceSolution.choice_solutions.
  rewrite !filter_In, Z.eqb_eq. tauto.
Qed.

Lemma append_cancel_l (a x y : string) : a ++ x = a ++ y -> x = y.
Proof.
  induction a as [|c a IH]; cbn [append]; intros H; [exact H|].
  injection H as H. exact (IH H).
Qed.

(** X7. [validate_total_marks] reads only the rows of the question at hand: a
    row of another question, wherever it sits in the table, does not change
    the outcome. *)
Theorem X7_total_marks_ignores_other_questions
  (q : Question.t) (row : ChoiceSolution.t) (db1 db2 : ChoiceSolution.table) :
  Question.pk (ChoiceSolution.question row) <> Question.pk q ->
  validate_total_marks q (db1 ++ row :: db2)%list
  = validate_total_marks q (db1 ++ db2)%list.
Proof.
  intros Hpk. unfold validate_total_marks.
  now rewrite (choice_solutions_skip q row db1 db2 Hpk).
Qed.

Lemma X7_total_marks_ignores_other_questions_witness :
  validate_total_marks Sample.mcq10
    (Sample.choice 1 Sample.mcq10 4%float true
       :: Sample.choice 4 Sample.msq5 2%float true
       :: [Sample.choice 2 Sample.mcq10 6%float false])
  = Ok.
Proof.
  refine (eq_trans
            (X7_total_marks_ignores_other_questions Sample.mcq10
               (Sample.choice 4 Sample.msq5 2%float true)
               [Sample.choice 1 Sample.mcq10 4%float true]
               [Sample.choice 2 Sample.mcq10 6%float false] _) _).
  - vm_compute. discriminate.
  - vm_compute. reflexivity.
Defined.

(** X8. A question that has no stored choice and declares 0 marks, the
    default of the field, passes [validate_total_marks] whatever its type:
    the sum over no choices is 0. *)
Theorem X8_no_choices_zero_marks_pass (q : Question.t) (db : ChoiceSolution.table) :
  ChoiceSolution.choice_solutions q db = [] ->
  Question.marks q = 0%N ->
  validate_total_marks q db = Ok.
Proof.
  intros Hrows Hmarks. unfold validate_total_marks.
  rewrite Hrows, Hmarks.
  now destruct (Py.str_in_list (Question.type q) ["MCQ"; "MSQ"]).
Qed.

Lemma X8_no_choices_zero_marks_pass_witness :
  validate_total_marks (Question.mk 7 "Pick one" "MCQ" 0 false)
    Sample.rows_4_6 = Ok.
Proof.
  apply (X8_no_choices_zero_marks_pass
           (Question.mk 7 "Pick one" "MCQ" 0 false) Sample.rows_4_6);
    reflexivity.
Defined.

(** X9. [ChoiceSolution.clean] reads only the stored rows of the choice's own
    question that are flagged correct: a row of another question, or a row
    not flagged correct, does not change the outcome. *)
Theorem X9_clean_ignores_other_rows
  (self row : ChoiceSolution.t) (db1 db2 : ChoiceSolution.table) :
  Question.pk (ChoiceSolution.question row)
  <> Question.pk (ChoiceSolution.question self)
  \/ ChoiceSolution.is_correct row = false ->
  ChoiceSolution.clean self (db1 ++ row :: db2)%list
  = ChoiceSolution.clean self (db1 ++ db2)%list.
Proof.
  intros H. unfold ChoiceSolution.clean.
  now rewrite (correct_options_skip self row db1 db2 H).
Qed.

Lemma X9_clean_ignores_other_rows_witness :
  ChoiceSolution.clean (Sample.choice 1 Sample.mcq10 4%float true)
    (Sample.choice 4 Sample.msq5 2%float true :: Sample.rows_4_6) = Ok.
Proof.
  refine (eq_trans
            (X9_clean_ignores_other_rows
               (Sample.choice 1 Sample.mcq10 4%float true)
               (Sample.choice 4 Sample.msq5 2%float true) []
               Sample.rows_4_6 _) _).
  - left. vm_compute. discriminate.
  - vm_compute. reflexivity.
Defined.

(** X10. [ChoiceSolution.clean] raises exactly when the question is of type
    MCQ, the committed choice is flagged correct, some stored choice of the
    question is flagged correct, and no stored correct choice of the question
    has the primary key of the committed one. *)
Theorem X10_clean_refuses_iff (self : ChoiceSolution.t) (db : ChoiceSolution.table) :
  ChoiceSolution.clean self db = Raise MultipleCorrectChoices
  <-> Question.type (ChoiceSolution.question self) = "MCQ"
      /\ ChoiceSolution.is_correct self = true
      /\ (exists row,
             In row db
             /\ Question.pk (ChoiceSolution.question row)
                = Question.pk (ChoiceSolution.question self)
             /\ ChoiceSolution.is_correct row = true)
      /\ (forall row,
             In row db ->
             Question.pk (ChoiceSolution.question row)
             = Question.pk (ChoiceSolution.question self) ->
             ChoiceSolution.is_correct row = true ->
             ChoiceSolution.pk row <> ChoiceSolution.pk self).
Proof.
  rewrite clean_raises_iff. split.
  - intros (Hty & Hc & Hne & Hin). repeat split; try assumption.
    + destruct (ChoiceSolution.correct_options self db) as [|row rows] eqn:E;
        [contradiction|].
      exists row. apply (correct_options_In self). rewrite E. now left.
    + intros row H1 H2 H3 Hpk.
      assert (Hrow : In row (ChoiceSolution.correct_options self db))
        by (apply correct_options_In; tauto).
      assert (ChoiceSolution.pk_in (ChoiceSolution.pk self)
                (map ChoiceSolution.pk (ChoiceSolution.correct_options self db))
              = true); [|congruence].
      apply pk_in_In. rewrite <- Hpk. now apply in_map.
  - intros (Hty & Hc & (row & Hrow) & Hall). repeat split; try assumption.
    + apply (correct_options_In self) in Hrow. intros E.
      rewrite E in Hrow. exact Hrow.
    + destruct (ChoiceSolution.pk_in _ _) eqn:E; [|reflexivity].
      apply pk_in_In, in_map_iff in E. destruct E as (r & Hpk & Hr).
      apply correct_options_In in Hr. destruct Hr as (H1 & H2 & H3).
      elim (Hall r H1 H2 H3 Hpk).
Qed.

Lemma X10_clean_refuses_iff_witness :
  ChoiceSolution.clean (Sample.choice 2 Sample.mcq10 6%float true)
    Sample.rows_4_6 = Raise MultipleCorrectChoices.
Proof.
  apply (proj2 (X10_clean_refuses_iff
                  (Sample.choice 2 Sample.mcq10 6%float true) Sample.rows_4_6)).
  split; [reflexivity|]. split; [reflexivity|]. split.
  - exists (Sample.choice 1 Sample.mcq10 4%float true).
    split; [now left|]. split; reflexivity.
  - intros row [<- | [<- | []]] _ Hc; [discriminate | discriminate Hc].
Defined.

(** X11. A choice that has not been saved yet (no primary key), flagged
    correct, on a question of type MCQ whose stored rows all have a key, is
    refused exactly when some stored choice of the question is flagged
    correct; the first correct choice of a question is accepted. *)
Theorem X11_new_correct_choice_refused_iff
  (self : ChoiceSolution.t) (db : ChoiceSolution.table) :
  Question.type (ChoiceSolution.question self) = "MCQ" ->
  ChoiceSolution.is_correct self = true ->
  ChoiceSolution.pk self = None ->
  Forall (fun row => ChoiceSolution.pk row <> None) db ->
  (ChoiceSolution.clean self db = Raise MultipleCorrectChoices
   <-> exists row,
         In row db
         /\ Question.pk (ChoiceSolution.question row)
            = Question.pk (ChoiceSolution.question self)
         /\ ChoiceSolution.is_correct row = true)
  /\ (ChoiceSolution.correct_options self db = [] ->
      ChoiceSolution.clean self db = Ok).
Proof.
  intros Hty Hc Hpk Hkeys. split.
  - rewrite clean_raises_iff. split.
    + intros (_ & _ & Hne & _).
      destruct (ChoiceSolution.correct_options self db) as [|row rows] eqn:E;
        [contradiction|].
      exists row. apply (correct_options_In self). rewrite E. now left.
    + intros (row & Hrow). repeat split; try assumption.
      * apply (correct_options_In self) in Hrow. intros E.
        rewrite E in Hrow. exact Hrow.
      * destruct (ChoiceSolution.pk_in _ _) eqn:E; [|reflexivity].
        apply pk_in_In, in_map_iff in E. destruct E as (r & Hr & Hin).
        apply correct_options_In in Hin. destruct Hin as (Hin & _).
        rewrite Forall_forall in Hkeys. specialize (Hkeys r Hin). congruence.
  - intros E. unfold ChoiceSolution.clean. rewrite E, Hty, Hc. reflexivity.
Qed.

Lemma X11_new_correct_choice_refused_iff_witness :
  ChoiceSolution.clean
    (ChoiceSolution.mk None Sample.mcq10 "text" "late" 0%float true)
    Sample.rows_4_6 = Raise MultipleCorrectChoices.
Proof.
  apply (proj1 (X11_new_correct_choice_refused_iff
                  (ChoiceSolution.mk None Sample.mcq10 "text" "late" 0%float true)
                  Sample.rows_4_6 eq_refl eq_refl eq_refl
                  ltac:(repeat constructor; discriminate))).
  exists (Sample.choice 1 Sample.mcq10 4%float true).
  split; [now left|]. split; reflexivity.
Defined.

(** X12. When the stored rows of an MCQ question hold at most one choice
    flagged correct, a choice flagged correct that [clean] accepts is that
    stored choice itself, if there is one: every stored correct choice of the
    question has the primary key of the committed choice. *)
Theorem X12_accepted_correct_choice_is_the_stored_one
  (self : ChoiceSolution.t) (db : ChoiceSolution.table) :
  Question.type (ChoiceSolution.question self) = "MCQ" ->
  ChoiceSolution.is_correct self = true ->
  (List.length (ChoiceSolution.correct_options self db) <= 1)%nat ->
  ChoiceSolution.clean self db = Ok ->
  forall row,
    In row db ->
    Question.pk (ChoiceSolution.question row)
    = Question.pk (ChoiceSolution.question self) ->
    ChoiceSolution.is_correct row = true ->
    ChoiceSolution.pk row = ChoiceSolution.pk self.
Proof.
  intros Hty Hc Hlen Hok row H1 H2 H3.
  assert (Hrow : In row (ChoiceSolution.correct_options self db))
    by (apply correct_options_In; tauto).
  destruct (ChoiceSolution.pk_in (ChoiceSolution.pk self)
              (map ChoiceSolution.pk (ChoiceSolution.correct_options self db)))
    eqn:E.
  - apply pk_in_In in E.
    destruct (ChoiceSolution.correct_options self db) as [|r [|r' rs]];
      cbn in Hlen; try lia; [contradiction|].
    destruct Hrow as [<-|[]]. destruct E as [E|[]]. exact E.
  - assert (ChoiceSolution.clean self db = Raise MultipleCorrectChoices);
      [|congruence].
    apply clean_raises_iff. repeat split; try assumption.
    intros Hnil. rewrite Hnil in Hrow. exact Hrow.
Qed.

Lemma X12_accepted_correct_choice_is_the_stored_one_witness :
  ChoiceSolution.pk (Sample.choice 1 Sample.mcq10 4%float true) = Some 1%Z.
Proof.
  apply (X12_accepted_correct_choice_is_the_stored_one
           (ChoiceSolution.mk (Some 1%Z) Sample.mcq10 "text" "edited" 4%float true)
           Sample.rows_4_6 eq_refl eq_refl).
  - vm_compute. lia.
  - vm_compute. reflexivity.
  - now left.
  - reflexivity.
  - reflexivity.
Defined.

(** ** ChoiceSolution.__str__ *)

(** X13. The text of a choice shows its correctness flag: two choices with
    the same value and different flags have different texts, whatever their
    marks are and however floats are printed. *)
Theorem X13_str_shows_the_correct_flag
  (str : float -> string) (a b : ChoiceSolution.t) :
  ChoiceSolution.value a = ChoiceSolution.value b ->
  ChoiceSolution.is_correct a <> ChoiceSolution.is_correct b ->
  Render.__str__ str a <> Render.__str__ str b.
Proof.
  intros Hv Hc E. unfold Render.__str__ in E. rewrite Hv in E.
  apply append_cancel_l in E.
  apply (append_cancel_l " (Correct: ") in E.
  destruct (ChoiceSolution.is_correct a), (ChoiceSolution.is_correct b);
    try (now elim Hc); cbn in E; discriminate E.
Qed.

Lemma X13_str_shows_the_correct_flag_witness :
  Render.__str__ Sample.str (Sample.choice 1 Sample.mcq10 5.5%float true)
  <> Render.__str__ Sample.str (Sample.choice 1 Sample.mcq10 5.5%float false).
Proof.
  apply (X13_str_shows_the_correct_flag Sample.str
           (Sample.choice 1 Sample.mcq10 5.5%float true)
           (Sample.choice 1 Sample.mcq10 5.5%float false)).
  - reflexivity.
  - discriminate.
Defined.

(** ** Marks that are not numbers *)

Lemma SFcompare_refl (f : SpecFloat.spec_float) :
  f <> SpecFloat.S754_nan -> SpecFloat.SFcompare f f = Some Eq.
Proof.
  destruct f as [s|s| |s m e]; cbn; intros H; try reflexivity.
  - now destruct s.
  - now elim H.
  - rewrite Z.compare_refl, Pos.compare_cont_refl. now destruct s.
Qed.

Lemma is_nan_spec (x : float) :
  PrimFloat.is_nan x = true <-> Prim2SF x = SpecFloat.S754_nan.
Proof.
  unfold PrimFloat.is_nan. rewrite FloatAxioms.eqb_spec.
  unfold SpecFloat.SFeqb. split.
  - intros H. destruct (Prim2SF x) as [s|s| |s m e] eqn:E; try reflexivity;
      rewrite SFcompare_refl in H; discriminate.
  - intros ->. reflexivity.
Qed.

Lemma add_nan (x y : float) :
  PrimFloat.is_nan x = true \/ PrimFloat.is_nan y = true ->
  PrimFloat.is_nan (x + y) = true.
Proof.
  rewrite !is_nan_spec, FloatAxioms.add_spec.
  unfold FloatAxioms.SF64add, SpecFloat.SFadd.
  intros [-> | ->]; [reflexivity|].
  now destruct (Prim2SF x).
Qed.

Lemma sum_nan_acc (xs : list float) (acc : float) :
  PrimFloat.is_nan acc = true ->
  PrimFloat.is_nan (fold_left PrimFloat.add xs acc) = true.
Proof.
  revert acc. induction xs as [|x xs IH]; cbn; intros acc H; [exact H|].
  apply IH, add_nan. now left.
Qed.

Lemma sum_nan_in (xs : list float) (acc x : float) :
  In x xs -> PrimFloat.is_nan x = true ->
  PrimFloat.is_nan (fold_left PrimFloat.add xs acc) = true.
Proof.
  revert acc. induction xs as [|y xs IH]; cbn; intros acc Hin Hx;
    [contradiction|].
  destruct Hin as [->|Hin].
  - apply sum_nan_acc, add_nan. now right.
  - now apply IH.
Qed.

Lemma nan_ne_int (x : float) (n : N) :
  PrimFloat.is_nan x = true -> Py.float_ne_int x n = true.
Proof.
  rewrite is_nan_spec. unfold Py.float_ne_int, Py.float_eq_int.
  now intros ->.
Qed.

(** X14. If the marks of some stored choice of an MCQ or MSQ question are
    NaN, [validate_total_marks] raises whatever the question's marks are: the
    sum is NaN, and NaN is unequal to every number. *)
Theorem X14_nan_marks_always_refused
  (q : Question.t) (db : ChoiceSolution.table) (row : ChoiceSolution.t) :
  Question.type q = "MCQ" \/ Question.type q = "MSQ" ->
  In row (ChoiceSolution.choice_solutions q db) ->
  PrimFloat.is_nan (ChoiceSolution.marks row) = true ->
  exists total,
    PrimFloat.is_nan total = true
    /\ validate_total_marks q db
       = Raise (MarksMismatch total (Question.marks q)).
Proof.
  intros Hty Hin Hnan.
  exists (Py.sum (map ChoiceSolution.marks
                    (ChoiceSolution.choice_solutions q db))).
  assert (Hsum : PrimFloat.is_nan
                   (Py.sum (map ChoiceSolution.marks
                              (ChoiceSolution.choice_solutions q db))) = true).
  { unfold Py.sum.
    apply (sum_nan_in _ _ (ChoiceSolution.marks row)); [|exact Hnan].
    now apply in_map. }
  split; [exact Hsum|].
  unfold validate_total_marks.
  apply str_in_list_mcq_msq in Hty. rewrite Hty.
  now rewrite (nan_ne_int _ (Question.marks q) Hsum).
Qed.

Lemma X14_nan_marks_always_refused_witness :
  validate_total_marks Sample.mcq10
    [Sample.choice 1 Sample.mcq10 4%float true;
     Sample.choice 2 Sample.mcq10 PrimFloat.nan false] <> Ok.
Proof.
  destruct (X14_nan_marks_always_refused Sample.mcq10
              [Sample.choice 1 Sample.mcq10 4%float true;
               Sample.choice 2 Sample.mcq10 PrimFloat.nan false]
              (Sample.choice 2 Sample.mcq10 PrimFloat.nan false)
              (or_introl eq_refl) (or_intror (or_introl eq_refl)) eq_refl)
    as (total & _ & H).
  rewrite H. discriminate.
Defined.
